(** * pycontroller: the controller event monitor

    A shallow embedding of [pycontroller.py], a script that initialises
    pygame, looks for a joystick and then prints one line per input event
    until it is interrupted.

    The script has no functions of its own: it is a sequence of module-level
    statements that call into pygame and [print].  The embedding therefore
    is an interpreter-free transcription of these statements into a small
    monad that threads
    - the log of the calls made to the outside (pygame calls and printed
      lines), in the order they happen;
    - the number of polls of the event queue made so far;
    and that can end in three ways: a normal end, an exception that
    propagates, or still running when the fuel given to [while True] is
    used up. *)

From Stdlib Require Import ZArith Lia.
From Stdlib Require Import SpecFloat.
From stdpp Require Import base decidable strings pretty list gmap.

Local Open Scope string_scope.
Local Open Scope list_scope.

(** ** Data *)

(** Python floats are IEEE binary64 numbers; [event.value] is one. *)
Definition float := spec_float.

(** 0.5 as a binary64 number: 2^52 * 2^(-53). *)
Definition half : float := S754_finite false 4503599627370496 (-53).

(** The events [pygame.event.get()] hands out.  pygame fixes the attributes
    of an event by its type: a JOYAXISMOTION event has [axis] and [value],
    JOYBUTTONDOWN and JOYBUTTONUP have [button].  An event of any other
    type (QUIT, JOYHATMOTION, KEYDOWN, ...) is kept with the number of its
    type only, which is none of the three above; the script reads nothing
    else from it. *)
Inductive Event : Type :=
| JOYAXISMOTION (axis : Z) (value : float)
| JOYBUTTONDOWN (button : Z)
| JOYBUTTONUP (button : Z)
| OTHEREVENT (type : Z).

(** What the script does to the outside, one entry per call. *)
Inductive Action : Type :=
| PygameInit                 (* pygame.init() *)
| JoystickModuleInit         (* pygame.joystick.init() *)
| GetCount                   (* pygame.joystick.get_count() *)
| NewJoystick (index : nat)  (* pygame.joystick.Joystick(index) *)
| JoystickInit               (* joystick.init() *)
| GetName                    (* joystick.get_name() *)
| EventGet                   (* pygame.event.get() *)
| Print (line : string)      (* print(line) *)
| PygameQuit.                (* pygame.quit() *)

#[global] Instance Action_eq_dec : EqDecision Action.
Proof. solve_decision. Defined.

(** The exceptions that can travel through the script. *)
Inductive Exn : Type :=
| NameError (name : string)
| KeyboardInterrupt
| PygameError.

#[global] Instance Exn_eq_dec : EqDecision Exn.
Proof. solve_decision. Defined.

(** How a piece of the script ends.  [Running] is the answer of a
    [while True] loop whose fuel is used up: control is still inside it. *)
Inductive Outcome (A : Type) : Type :=
| Done (a : A)
| Raised (e : Exn)
| Running.
Arguments Done {A} a.
Arguments Raised {A} e.
Arguments Running {A}.

(** The surroundings of one run: the names of the devices pygame sees, in
    the order of their indices, the batches of events the queue returns (the
    n-th poll returns [queue n]), and the interruption, if any.  [interrupt = Some k] says that the user's Ctrl-C
    is turned into a [KeyboardInterrupt] right after the call number [k]
    of the run (counting from 0) has returned, which is where CPython runs
    its signal handlers. *)
Record World : Type := mkWorld {
  devices : list string;
  queue : nat -> list Event;
  interrupt : option nat
}.

Record State : Type := mkState {
  out : list Action;
  polls : nat
}.

Definition start : State := mkState [] 0.

(** ** The monad of module-level statements *)

Definition M (A : Type) : Type := World -> State -> Outcome A * State.

Definition ret {A} (a : A) : M A := fun _ s => (Done a, s).

Definition raise {A} (e : Exn) : M A := fun _ s => (Raised e, s).

Definition running {A} : M A := fun _ s => (Running, s).

Definition bind {A B} (m : M A) (f : A -> M B) : M B := fun w s =>
  match m w s with
  | (Done a, s') => f a w s'
  | (Raised e, s') => (Raised e, s')
  | (Running, s') => (Running, s')
  end.

Declare Scope script_scope.
Delimit Scope script_scope with script.
Notation "x <- m ;; k" := (bind m (fun x => k))
  (at level 100, m at next level, right associativity) : script_scope.
Notation "m ;; k" := (bind m (fun _ => k))
  (at level 100, right associativity) : script_scope.
Local Open Scope script_scope.

(** One call to the outside: it is logged, and if the interruption is due
    once this call has returned, [KeyboardInterrupt] is raised there. *)
Definition call (a : Action) : M unit := fun w s =>
  let s' := mkState (out s ++ [a]) (polls s) in
  if decide (interrupt w = Some (length (out s)))
  then (Raised KeyboardInterrupt, s')
  else (Done tt, s').

(** [try: body except KeyboardInterrupt: handler]. *)
Definition try_except_KeyboardInterrupt (body handler : M unit) : M unit :=
  fun w s =>
    match body w s with
    | (Raised KeyboardInterrupt, s') => handler w s'
    | r => r
    end.

(** [try: body finally: final]: [final] runs however [body] ends, and the
    exception of [body], if any, goes on afterwards unless [final] raises
    one of its own.  A body that is still running has not reached it. *)
Definition try_finally (body final : M unit) : M unit := fun w s =>
  match body w s with
  | (Done _, s') => final w s'
  | (Raised e, s') =>
      match final w s' with
      | (Done _, s'') => (Raised e, s'')
      | r => r
      end
  | (Running, s') => (Running, s')
  end.

(** [for x in xs: body x]. *)
Fixpoint for_each {A} (xs : list A) (body : A -> M unit) : M unit :=
  match xs with
  | [] => ret tt
  | x :: xs' => body x ;; for_each xs' body
  end.

(** ** Names *)

(** The names of Python's [builtins] module. *)
Definition builtins : gset string := list_to_set [
  "abs"; "aiter"; "all"; "anext"; "any"; "ascii"; "bin"; "bool";
  "breakpoint"; "bytearray"; "bytes"; "callable"; "chr"; "classmethod";
  "compile"; "complex"; "copyright"; "credits"; "delattr"; "dict"; "dir";
  "divmod"; "enumerate"; "eval"; "exec"; "exit"; "filter"; "float";
  "format"; "frozenset"; "getattr"; "globals"; "hasattr"; "hash"; "help";
  "hex"; "id"; "input"; "int"; "isinstance"; "issubclass"; "iter"; "len";
  "license"; "list"; "locals"; "map"; "max"; "memoryview"; "min"; "next";
  "object"; "oct"; "open"; "ord"; "pow"; "print"; "property"; "quit";
  "range"; "repr"; "reversed"; "round"; "set"; "setattr"; "slice";
  "sorted"; "staticmethod"; "str"; "sum"; "super"; "tuple"; "type";
  "vars"; "zip"; "__import__"; "__build_class__"; "__debug__";
  "True"; "False"; "None"; "Ellipsis"; "NotImplemented";
  "BaseException"; "Exception"; "ArithmeticError"; "AssertionError";
  "AttributeError"; "BlockingIOError"; "BrokenPipeError"; "BufferError";
  "BytesWarning"; "ChildProcessError"; "ConnectionAbortedError";
  "ConnectionError"; "ConnectionRefusedError"; "ConnectionResetError";
  "DeprecationWarning"; "EOFError"; "EnvironmentError"; "FileExistsError";
  "FileNotFoundError"; "FloatingPointError"; "FutureWarning";
  "GeneratorExit"; "IOError"; "ImportError"; "ImportWarning";
  "IndentationError"; "IndexError"; "InterruptedError";
  "IsADirectoryError"; "KeyError"; "KeyboardInterrupt"; "LookupError";
  "MemoryError"; "ModuleNotFoundError"; "NameError";
  "NotADirectoryError"; "NotImplementedError"; "OSError";
  "OverflowError"; "PendingDeprecationWarning"; "PermissionError";
  "ProcessLookupError"; "RecursionError"; "ReferenceError";
  "ResourceWarning"; "RuntimeError"; "RuntimeWarning";
  "StopAsyncIteration"; "StopIteration"; "SyntaxError"; "SyntaxWarning";
  "SystemError"; "SystemExit"; "TabError"; "TimeoutError"; "TypeError";
  "UnboundLocalError"; "UnicodeDecodeError"; "UnicodeEncodeError";
  "UnicodeError"; "UnicodeTranslateError"; "UnicodeWarning";
  "UserWarning"; "ValueError"; "Warning"; "ZeroDivisionError" ].

(** The names a module holds when its first statement runs. *)
Definition fresh_module : gset string := list_to_set [
  "__name__"; "__doc__"; "__package__"; "__loader__"; "__spec__";
  "__annotations__"; "__builtins__"; "__file__"; "__cached__" ].

(** Line 1, [import pygame], binds the name [pygame]. *)
Definition import (name : string) (globals : gset string) : gset string :=
  {[ name ]} ∪ globals.

(** The module's names at line 5: only line 1 has bound one before it
    ([joystick] and [event] are bound from line 10 on). *)
Definition globals_at_line_5 : gset string := import "pygame" fresh_module.

(** An expression statement that is a bare name: the name is looked up in
    the module's names, then in the builtins; it raises [NameError] when it
    is in neither, and its value is dropped otherwise. *)
Definition load_name (globals : gset string) (name : string) : M unit :=
  if decide (name ∈ globals ∪ builtins) then ret tt else raise (NameError name).

(** ** pygame, as far as the script uses it *)

Module pygame.

Definition init : M unit := call PygameInit.

Definition quit : M unit := call PygameQuit.

Module joystick.

Definition init : M unit := call JoystickModuleInit.

Definition get_count : M nat := fun w =>
  (call GetCount ;; ret (length (devices w))) w.

(** [Joystick(index)] gives a handle on the device, and raises
    [pygame.error] when there is no device with this index. *)
Definition Joystick (index : nat) : M nat := fun w =>
  (call (NewJoystick index) ;;
   if decide (index < length (devices w)) then ret index else raise PygameError) w.

End joystick.

(** The methods of a joystick handle. *)
Module Joystick.

Definition init (self : nat) : M unit := call JoystickInit.

Definition get_name (self : nat) : M string := fun w =>
  (call GetName ;; ret (default "" (devices w !! self))) w.

End Joystick.

Module event.

(** [pygame.event.get()] empties the queue: the poll number [n] returns the
    batch [queue n], which may be empty, and never waits. *)
Definition get : M (list Event) := fun w s =>
  (call EventGet ;; ret (queue w (polls s))) w (mkState (out s) (S (polls s))).

End event.

End pygame.

Definition print (line : string) : M unit := call (Print line).

(** ** The script *)

Section Script.

(** [format(x, '')] of a float, which an f-string applies to
    [event.value]: CPython's shortest decimal that reads back as [x].  It
    belongs to the interpreter, not to the script. *)
Variable float_repr : float -> string.

(** Lines 17-30, the body of the [for] loop. *)
Definition handle_event (event : Event) : M unit :=
  match event with
  | JOYAXISMOTION axis value =>
      print ("Axis " +:+ pretty axis +:+ " moved to " +:+ float_repr value)
  | JOYBUTTONDOWN button =>
      print ("Button " +:+ pretty button +:+ " pressed")
  | JOYBUTTONUP button =>
      print ("Button " +:+ pretty button +:+ " released")
  | OTHEREVENT _ =>
      print "Waiting"
  end.

(** Lines 15-30, [while True]: [fuel] bounds the number of turns that are
    run; the loop itself has no test and no [break]. *)
Fixpoint main_loop (fuel : nat) : M unit :=
  match fuel with
  | O => running
  | S fuel' =>
      events <- pygame.event.get ;;
      for_each events handle_event ;;
      main_loop fuel'
  end.

(** Lines 14-35, the [try] statement. *)
Definition monitor (fuel : nat) : M unit :=
  try_finally
    (try_except_KeyboardInterrupt (main_loop fuel) (print "Exiting."))
    pygame.quit.

(** Lines 10-35, the [else] branch. *)
Definition with_controller (fuel : nat) : M unit :=
  joystick <- pygame.joystick.Joystick 0 ;;
  pygame.Joystick.init joystick ;;
  name <- pygame.Joystick.get_name joystick ;;
  print ("Connected controller: " +:+ name) ;;
  monitor fuel.

(** Lines 7-35, the [if] statement. *)
Definition device_check (fuel : nat) : M unit :=
  count <- pygame.joystick.get_count ;;
  if decide (count = 0) then print "No joystick found."
  else with_controller fuel.

(** Lines 3-35, the whole module after its [import]. *)
Definition pycontroller (fuel : nat) : M unit :=
  pygame.init ;;
  pygame.joystick.init ;;
  load_name globals_at_line_5 "c" ;;
  device_check fuel.

End Script.

(** ** Vocabulary of the statements below *)

(** The line the loop body prints for an event. *)
Definition event_line (float_repr : float -> string) (e : Event) : string :=
  match e with
  | JOYAXISMOTION a v => "Axis " +:+ pretty a +:+ " moved to " +:+ float_repr v
  | JOYBUTTONDOWN b => "Button " +:+ pretty b +:+ " pressed"
  | JOYBUTTONUP b => "Button " +:+ pretty b +:+ " released"
  | OTHEREVENT _ => "Waiting"
  end.

Definition lines (float_repr : float -> string) (events : list Event)
  : list Action :=
  map (fun e => Print (event_line float_repr e)) events.

(** What [n] turns of the loop log when the first of them makes the poll
    number [p]. *)
Fixpoint loop_trace (float_repr : float -> string) (w : World) (p n : nat)
  : list Action :=
  match n with
  | O => []
  | S n' => EventGet :: lines float_repr (queue w p)
              ++ loop_trace float_repr w (S p) n'
  end.

(** The actions of the loop: polls and the lines for events. *)
Definition loop_action (repr : float -> string) (a : Action) : Prop :=
  a = EventGet \/ exists e, a = Print (event_line repr e).

(** The calls of the [else] branch before its [try] statement. *)
Definition startup_calls (name : string) : list Action :=
  [NewJoystick 0; JoystickInit; GetName;
   Print ("Connected controller: " +:+ name)].

(** No interruption is raised after the calls number [lo] to [hi - 1]. *)
Definition uninterrupted (w : World) (lo hi : nat) : Prop :=
  forall k, interrupt w = Some k -> k < lo \/ hi <= k.

(** How often an action occurs in a log. *)
Definition occurrences (a : Action) (log : list Action) : nat :=
  length (filter (fun x => x = a) log).

(** An event of none of the three types the loop body tests for. *)
Definition unhandled (e : Event) : Prop :=
  (forall a v, e <> JOYAXISMOTION a v)
  /\ (forall b, e <> JOYBUTTONDOWN b)
  /\ (forall b, e <> JOYBUTTONUP b).

(** An action that a log does not hold. *)
Definition absent (a : Action) (log : list Action) : Prop :=
  Forall (fun x => x <> a) log.

(** A float formatter for the examples: it knows 0.5 only. *)
Definition repr_half_only (x : float) : string :=
  match x with
  | S754_finite false 4503599627370496 (-53) => "0.5"
  | _ => "?"
  end.

Definition no_events : nat -> list Event := fun _ => [].

(** A queue for the examples: the first and the third poll return events,
    every other poll returns nothing. *)
Definition sample_queue (n : nat) : list Event :=
  match n with
  | 0 => [JOYAXISMOTION 1 half; OTHEREVENT 1538]
  | 1 => []
  | 2 => [JOYBUTTONDOWN 3; JOYBUTTONUP 3]
  | _ => []
  end.

(** Worlds for the examples. *)
Definition no_device : World := mkWorld [] no_events None.

Definition one_device (stop : option nat) : World :=
  mkWorld ["X"] sample_queue stop.

(** Lines 14 and 32-35 around any body: the [try] statement with its
    [except KeyboardInterrupt] and [finally] clauses. *)
Definition try_statement (body : M unit) : M unit :=
  try_finally (try_except_KeyboardInterrupt body (print "Exiting."))
    pygame.quit.

(** The events of [n] polls in a row, the first being the poll number
    [p], in the order the queue hands them out. *)
Fixpoint drained (w : World) (p n : nat) : list Event :=
  match n with
  | O => []
  | S n' => queue w p ++ drained w (S p) n'
  end.

(** The lines printed in a log, in order. *)
Definition printed_lines (log : list Action) : list string :=
  omap (fun a => match a with Print line => Some line | _ => None end) log.

(** Two events that the same printed line can stand for: events of the
    same type and, for buttons, of the same button. *)
Definition same_report (e e' : Event) : Prop :=
  match e, e' with
  | JOYAXISMOTION _ _, JOYAXISMOTION _ _ => True
  | JOYBUTTONDOWN b, JOYBUTTONDOWN b' => b = b'
  | JOYBUTTONUP b, JOYBUTTONUP b' => b = b'
  | OTHEREVENT _, OTHEREVENT _ => True
  | _, _ => False
  end.

(** * Proofs *)

(** ** Names *)

Lemma not_in_names (x : string) (l : list string) :
  bool_decide (x ∈ l) = false -> x ∉ (list_to_set l : gset string).
Proof.
  intros H Hin. apply elem_of_list_to_set in Hin.
  apply bool_decide_eq_false in H. contradiction.
Qed.

Lemma c_unbound : "c" ∉ globals_at_line_5 ∪ builtins.
Proof.
  unfold globals_at_line_5, import, fresh_module, builtins.
  intros H. apply elem_of_union in H as [H | H].
  - apply elem_of_union in H as [H | H].
    + apply elem_of_singleton in H. discriminate H.
    + revert H. apply not_in_names. vm_compute. reflexivity.
  - revert H. apply not_in_names. vm_compute. reflexivity.
Qed.

Lemma load_c (w : World) (s : State) :
  load_name globals_at_line_5 "c" w s = (Raised (NameError "c"), s).
Proof.
  unfold load_name. destruct (decide _) as [Hin | _].
  - destruct (c_unbound Hin).
  - reflexivity.
Qed.

(** ** Calls *)

Lemma call_quiet (a : Action) (w : World) (s : State) :
  interrupt w <> Some (length (out s)) ->
  call a w s = (Done tt, mkState (out s ++ [a]) (polls s)).
Proof. intros H. unfold call. destruct (decide _); [contradiction | reflexivity]. Qed.

Lemma call_hit (a : Action) (w : World) (s : State) :
  interrupt w = Some (length (out s)) ->
  call a w s = (Raised KeyboardInterrupt, mkState (out s ++ [a]) (polls s)).
Proof. intros H. unfold call. destruct (decide _); [reflexivity | contradiction]. Qed.

Lemma call_logged (a : Action) (w : World) (s : State) :
  exists r, call a w s = (r, mkState (out s ++ [a]) (polls s)).
Proof. unfold call. destruct (decide _); eauto. Qed.

Lemma uninterrupted_here (w : World) (lo hi : nat) :
  uninterrupted w lo hi -> lo < hi -> interrupt w <> Some lo.
Proof. intros H Hlt E. destruct (H lo E); lia. Qed.

Lemma uninterrupted_sub (w : World) (lo hi lo' hi' : nat) :
  uninterrupted w lo hi -> lo <= lo' -> hi' <= hi -> uninterrupted w lo' hi'.
Proof. intros H H1 H2 k E. destruct (H k E); lia. Qed.

Lemma uninterrupted_None (w : World) (lo hi : nat) :
  interrupt w = None -> uninterrupted w lo hi.
Proof. intros H k E. congruence. Qed.

Lemma call_within (a : Action) (w : World) (s : State) (lo hi : nat) :
  uninterrupted w lo hi ->
  lo <= length (out s) < hi ->
  call a w s = (Done tt, mkState (out s ++ [a]) (polls s)).
Proof.
  intros Hq Hr. apply call_quiet. intros E. destruct (Hq _ E); lia.
Qed.

(** Side conditions on the length of a log. *)
Ltac log_length :=
  cbn [out polls length]; rewrite ?length_app; cbn [length]; lia.

Lemma take_snoc_exact (l : list Action) (a : Action) (rest : list Action) :
  take (S (length l)) (l ++ a :: rest) = l ++ [a].
Proof.
  rewrite (cons_middle a l rest), app_assoc.
  apply take_app_length'. rewrite length_app. simpl. lia.
Qed.

Lemma event_get_quiet (w : World) (s : State) :
  interrupt w <> Some (length (out s)) ->
  pygame.event.get w s
  = (Done (queue w (polls s)), mkState (out s ++ [EventGet]) (S (polls s))).
Proof.
  intros H. unfold pygame.event.get, bind.
  rewrite call_quiet by exact H. reflexivity.
Qed.

Lemma event_get_hit (w : World) (s : State) :
  interrupt w = Some (length (out s)) ->
  pygame.event.get w s
  = (Raised KeyboardInterrupt, mkState (out s ++ [EventGet]) (S (polls s))).
Proof.
  intros H. unfold pygame.event.get, bind.
  rewrite call_hit by exact H. reflexivity.
Qed.

(** ** The loop body and the [for] statement *)

Lemma handle_event_print (repr : float -> string) (e : Event) :
  handle_event repr e = print (event_line repr e).
Proof. destruct e; reflexivity. Qed.

Lemma for_each_quiet (repr : float -> string) (w : World) (l : list Event) :
  forall s,
    uninterrupted w (length (out s)) (length (out s) + length l) ->
    for_each l (handle_event repr) w s
    = (Done tt, mkState (out s ++ lines repr l) (polls s)).
Proof.
  induction l as [| e l IH]; intros s Hq; simpl.
  - unfold ret. rewrite app_nil_r. destruct s; reflexivity.
  - simpl in Hq. unfold bind. rewrite handle_event_print. unfold print.
    rewrite call_quiet by (eapply uninterrupted_here; [exact Hq | lia]).
    rewrite IH; simpl.
    + rewrite <- app_assoc. reflexivity.
    + rewrite length_app. simpl.
      eapply uninterrupted_sub; [exact Hq | lia | lia].
Qed.

Lemma for_each_hit (repr : float -> string) (w : World) (k : nat)
    (l : list Event) :
  interrupt w = Some k ->
  forall s,
    length (out s) <= k < length (out s) + length l ->
    for_each l (handle_event repr) w s
    = (Raised KeyboardInterrupt,
       mkState (take (S k) (out s ++ lines repr l)) (polls s)).
Proof.
  intros Hk. induction l as [| e l IH]; intros s Hr; simpl in *.
  - lia.
  - unfold bind. rewrite handle_event_print. unfold print.
    destruct (decide (k = length (out s))) as [-> | Hne].
    + rewrite call_hit by exact Hk. rewrite take_snoc_exact. reflexivity.
    + rewrite call_quiet by congruence.
      rewrite IH; simpl.
      * rewrite <- app_assoc. reflexivity.
      * rewrite length_app. simpl. lia.
Qed.

(** ** The loop *)

Lemma main_loop_quiet (repr : float -> string) (w : World) (fuel : nat) :
  forall s,
    uninterrupted w (length (out s))
      (length (out s) + length (loop_trace repr w (polls s) fuel)) ->
    main_loop repr fuel w s
    = (Running,
       mkState (out s ++ loop_trace repr w (polls s) fuel) (polls s + fuel)).
Proof.
  induction fuel as [| fuel IH]; intros s Hq; cbn [main_loop loop_trace] in *.
  - unfold running. rewrite app_nil_r, Nat.add_0_r. destruct s; reflexivity.
  - cbn [length] in Hq. rewrite length_app in Hq.
    unfold bind.
    rewrite event_get_quiet by (eapply uninterrupted_here; [exact Hq | lia]).
    rewrite for_each_quiet; cbn [out polls].
    + rewrite IH; cbn [out polls].
      * rewrite <- !app_assoc. cbn [app]. f_equal. f_equal. lia.
      * rewrite !length_app. cbn [length].
        eapply uninterrupted_sub; [exact Hq | lia | lia].
    + rewrite length_app. cbn [length]. unfold lines in *.
      rewrite length_map in *.
      eapply uninterrupted_sub; [exact Hq | lia | lia].
Qed.

Lemma lines_length (repr : float -> string) (l : list Event) :
  length (lines repr l) = length l.
Proof. unfold lines. apply length_map. Qed.

Lemma loop_trace_length (repr : float -> string) (w : World) (n : nat) :
  forall p, n <= length (loop_trace repr w p n).
Proof.
  induction n as [| n IH]; intros p; cbn [loop_trace length].
  - lia.
  - rewrite length_app. specialize (IH (S p)). lia.
Qed.

Lemma main_loop_hit (repr : float -> string) (w : World) (k : nat)
    (fuel : nat) :
  interrupt w = Some k ->
  forall s,
    length (out s) <= k
      < length (out s) + length (loop_trace repr w (polls s) fuel) ->
    exists p,
      main_loop repr fuel w s
      = (Raised KeyboardInterrupt,
         mkState (take (S k) (out s ++ loop_trace repr w (polls s) fuel)) p).
Proof.
  intros Hk. induction fuel as [| fuel IH]; intros s Hr;
    cbn [main_loop loop_trace length] in *.
  - lia.
  - rewrite length_app, lines_length in Hr. unfold bind.
    destruct (decide (k = length (out s))) as [-> | Hne].
    { rewrite event_get_hit by exact Hk.
      rewrite take_snoc_exact. eauto. }
    rewrite event_get_quiet by congruence.
    set (batch := queue w (polls s)) in *.
    destruct (decide (k < length (out s) + 1 + length batch)) as [Hin | Hout].
    + rewrite (for_each_hit repr w k batch Hk)
        by (cbn [out]; rewrite length_app; cbn [length]; lia).
      cbn [out polls]. eexists. f_equal. f_equal.
      replace (out s ++ EventGet :: lines repr batch
                 ++ loop_trace repr w (S (polls s)) fuel)
        with (((out s ++ [EventGet]) ++ lines repr batch)
                 ++ loop_trace repr w (S (polls s)) fuel)
        by (rewrite <- !app_assoc; reflexivity).
      symmetry. apply take_app_le.
      rewrite !length_app, lines_length. cbn [length]. lia.
    + rewrite for_each_quiet; cbn [out polls].
      * destruct (IH (mkState ((out s ++ [EventGet]) ++ lines repr batch)
                        (S (polls s)))) as [p Hp].
        { cbn [out polls]. rewrite !length_app, lines_length.
          cbn [length]. lia. }
        rewrite Hp. cbn [out polls]. exists p. f_equal. f_equal. f_equal.
        rewrite <- !app_assoc. reflexivity.
      * rewrite length_app. cbn [length]. intros k' Hk'.
        rewrite Hk in Hk'. injection Hk' as <-. lia.
Qed.

(** The loop ends in one of two ways only: it is still running, or the
    interruption has been raised inside it. *)
Lemma main_loop_cases (repr : float -> string) (w : World) (fuel : nat)
    (s : State) :
  main_loop repr fuel w s
  = (Running,
     mkState (out s ++ loop_trace repr w (polls s) fuel) (polls s + fuel))
  \/ exists k p,
       interrupt w = Some k
       /\ length (out s) <= k
            < length (out s) + length (loop_trace repr w (polls s) fuel)
       /\ main_loop repr fuel w s
          = (Raised KeyboardInterrupt,
             mkState (take (S k) (out s ++ loop_trace repr w (polls s) fuel))
               p).
Proof.
  destruct (interrupt w) as [k |] eqn:Hk.
  - destruct (decide (length (out s) <= k
        < length (out s) + length (loop_trace repr w (polls s) fuel)))
      as [Hin | Hout].
    + right. destruct (main_loop_hit repr w k fuel Hk s Hin) as [p Hp].
      exists k, p. auto.
    + left. apply main_loop_quiet. intros k' Hk'.
      rewrite Hk in Hk'. injection Hk' as <-. lia.
  - left. apply main_loop_quiet, uninterrupted_None, Hk.
Qed.

(** ** What the loop logs *)

Lemma lines_loop_actions (repr : float -> string) (l : list Event) :
  Forall (loop_action repr) (lines repr l).
Proof.
  unfold lines. apply Forall_map, Forall_forall. intros e _.
  right. exists e. reflexivity.
Qed.

Lemma loop_trace_actions (repr : float -> string) (w : World) (n : nat) :
  forall p, Forall (loop_action repr) (loop_trace repr w p n).
Proof.
  induction n as [| n IH]; intros p; cbn [loop_trace].
  - constructor.
  - constructor; [left; reflexivity |].
    apply Forall_app. split; [apply lines_loop_actions | apply IH].
Qed.

Lemma event_line_not_Exiting (repr : float -> string) (e : Event) :
  event_line repr e <> "Exiting.".
Proof. destruct e; cbn; discriminate. Qed.

Lemma occurrences_app (a : Action) (l1 l2 : list Action) :
  occurrences a (l1 ++ l2) = occurrences a l1 + occurrences a l2.
Proof. unfold occurrences. rewrite filter_app. apply length_app. Qed.

Lemma occurrences_absent (a : Action) (l : list Action) :
  absent a l -> occurrences a l = 0.
Proof.
  unfold occurrences. induction 1 as [| x l Hx _ IH].
  - reflexivity.
  - rewrite filter_cons_False by exact Hx. exact IH.
Qed.

Lemma loop_actions_no_Exiting (repr : float -> string) (l : list Action) :
  Forall (loop_action repr) l -> occurrences (Print "Exiting.") l = 0.
Proof.
  intros H. apply occurrences_absent. eapply Forall_impl; [exact H |].
  intros a [-> | [e ->]]; [discriminate |].
  intros E. injection E as E. exact (event_line_not_Exiting repr e E).
Qed.

Lemma loop_actions_no_quit (repr : float -> string) (l : list Action) :
  Forall (loop_action repr) l -> occurrences PygameQuit l = 0.
Proof.
  intros H. apply occurrences_absent. eapply Forall_impl; [exact H |].
  intros a [-> | [e ->]]; discriminate.
Qed.

(** ** The [try] statement *)

Lemma take_past (n : nat) (l1 l2 : list Action) :
  length l1 <= n -> take n (l1 ++ l2) = l1 ++ take (n - length l1) l2.
Proof. intros H. rewrite take_app. rewrite take_ge by exact H. reflexivity. Qed.

Lemma monitor_hit (repr : float -> string) (w : World) (k fuel : nat)
    (s : State) :
  interrupt w = Some k ->
  length (out s) <= k
    < length (out s) + length (loop_trace repr w (polls s) fuel) ->
  exists p,
    monitor repr fuel w s
    = (Done tt,
       mkState (out s
                  ++ take (S k - length (out s))
                       (loop_trace repr w (polls s) fuel)
                  ++ [Print "Exiting."; PygameQuit]) p).
Proof.
  intros Hk Hr.
  destruct (main_loop_hit repr w k fuel Hk s Hr) as [p Hp].
  exists p. unfold monitor, try_finally, try_except_KeyboardInterrupt.
  rewrite Hp. rewrite take_past by lia.
  set (tr := take (S k - length (out s)) (loop_trace repr w (polls s) fuel)).
  assert (Hlen : length (out s ++ tr) = S k).
  { rewrite length_app. unfold tr. rewrite length_take. lia. }
  unfold print, pygame.quit.
  rewrite call_quiet by (cbn [out]; rewrite Hlen, Hk; intros [= E]; lia).
  cbn [out polls].
  rewrite call_quiet
    by (cbn [out]; rewrite length_app, Hlen, Hk; cbn [length];
        intros [= E]; lia).
  cbn [out polls]. rewrite <- !app_assoc. reflexivity.
Qed.

Lemma monitor_quiet (repr : float -> string) (w : World) (fuel : nat)
    (s : State) :
  uninterrupted w (length (out s))
    (length (out s) + length (loop_trace repr w (polls s) fuel)) ->
  monitor repr fuel w s
  = (Running,
     mkState (out s ++ loop_trace repr w (polls s) fuel) (polls s + fuel)).
Proof.
  intros Hq. unfold monitor, try_finally, try_except_KeyboardInterrupt.
  rewrite main_loop_quiet by exact Hq. reflexivity.
Qed.

(** ** The statements before the loop *)

Lemma with_controller_startup (repr : float -> string) (w : World)
    (fuel : nat) (s : State) (name : string) (rest : list string) :
  devices w = name :: rest ->
  uninterrupted w (length (out s)) (length (out s) + 4) ->
  with_controller repr fuel w s
  = monitor repr fuel w (mkState (out s ++ startup_calls name) (polls s)).
Proof.
  intros Hd Hq.
  unfold with_controller, pygame.joystick.Joystick, pygame.Joystick.init,
    pygame.Joystick.get_name, print, bind, ret.
  rewrite Hd. cbn [length lookup list_lookup default].
  rewrite (call_within _ w s _ _ Hq) by log_length.
  destruct (decide (0 < S (length rest))) as [_ | Hn]; [| lia].
  rewrite (call_within _ w _ _ _ Hq) by log_length.
  rewrite (call_within _ w _ _ _ Hq) by log_length.
  rewrite (call_within _ w _ _ _ Hq) by log_length.
  cbn [out polls]. rewrite <- !app_assoc. reflexivity.
Qed.

Lemma get_count_quiet (w : World) (s : State) :
  interrupt w <> Some (length (out s)) ->
  pygame.joystick.get_count w s
  = (Done (length (devices w)), mkState (out s ++ [GetCount]) (polls s)).
Proof.
  intros H. unfold pygame.joystick.get_count, bind.
  rewrite call_quiet by exact H. reflexivity.
Qed.

Lemma device_check_startup (repr : float -> string) (w : World)
    (fuel : nat) (s : State) (name : string) (rest : list string) :
  devices w = name :: rest ->
  uninterrupted w (length (out s)) (length (out s) + 5) ->
  device_check repr fuel w s
  = monitor repr fuel w
      (mkState (out s ++ GetCount :: startup_calls name) (polls s)).
Proof.
  intros Hd Hq. unfold device_check, bind.
  rewrite get_count_quiet by (eapply uninterrupted_here; [exact Hq | lia]).
  rewrite Hd. cbn [length].
  destruct (decide (S (length rest) = 0)) as [E | _]; [discriminate E |].
  rewrite (with_controller_startup repr w fuel _ name rest Hd).
  - cbn [out polls]. rewrite <- app_assoc. reflexivity.
  - eapply uninterrupted_sub; [exact Hq | log_length | log_length].
Qed.

Lemma device_check_no_joystick (repr : float -> string) (w : World)
    (fuel : nat) (s : State) :
  devices w = [] ->
  uninterrupted w (length (out s)) (length (out s) + 2) ->
  device_check repr fuel w s
  = (Done tt,
     mkState (out s ++ [GetCount; Print "No joystick found."]) (polls s)).
Proof.
  intros Hd Hq. unfold device_check, bind.
  rewrite get_count_quiet by (eapply uninterrupted_here; [exact Hq | lia]).
  rewrite Hd. cbn [length].
  destruct (decide (0 = 0)) as [_ | N]; [| destruct (N eq_refl)].
  unfold print. rewrite (call_within _ w _ _ _ Hq) by log_length.
  cbn [out polls]. rewrite <- app_assoc. reflexivity.
Qed.

Lemma get_count_hit (w : World) (s : State) :
  interrupt w = Some (length (out s)) ->
  pygame.joystick.get_count w s
  = (Raised KeyboardInterrupt, mkState (out s ++ [GetCount]) (polls s)).
Proof.
  intros H. unfold pygame.joystick.get_count, bind.
  rewrite call_hit by exact H. reflexivity.
Qed.

(** The interruption raised before the [try] statement is entered. *)
Lemma with_controller_early_hit (repr : float -> string) (w : World)
    (fuel k : nat) (s : State) (name : string) (rest : list string) :
  devices w = name :: rest ->
  interrupt w = Some k ->
  length (out s) <= k < length (out s) + 4 ->
  with_controller repr fuel w s
  = (Raised KeyboardInterrupt,
     mkState (out s ++ take (S k - length (out s)) (startup_calls name))
       (polls s)).
Proof.
  intros Hd Hk Hr.
  unfold with_controller, pygame.joystick.Joystick, pygame.Joystick.init,
    pygame.Joystick.get_name, print, bind, ret.
  rewrite Hd. cbn [length lookup list_lookup default].
  assert (Hcases : k - length (out s) = 0 \/ k - length (out s) = 1
          \/ k - length (out s) = 2 \/ k - length (out s) = 3) by lia.
  assert (Hquiet : forall a s', length (out s') <> k ->
            call a w s' = (Done tt, mkState (out s' ++ [a]) (polls s'))).
  { intros a s' Hne. apply call_quiet. rewrite Hk. intros [= E]. lia. }
  assert (Hhit : forall a s', length (out s') = k ->
            call a w s'
            = (Raised KeyboardInterrupt, mkState (out s' ++ [a]) (polls s'))).
  { intros a s' He. apply call_hit. rewrite Hk, He. reflexivity. }
  destruct (decide (0 < S (length rest))) as [_ | Hn]; [| lia].
  destruct Hcases as [E | [E | [E | E]]];
    replace (S k - length (out s)) with (S (k - length (out s))) by lia;
    rewrite E; cbn [take startup_calls];
    repeat (first [ rewrite Hhit by log_length
                  | rewrite Hquiet by log_length ]; cbn [out polls]);
    rewrite <- ?app_assoc; reflexivity.
Qed.

Lemma device_check_early_hit (repr : float -> string) (w : World)
    (fuel k : nat) (s : State) (name : string) (rest : list string) :
  devices w = name :: rest ->
  interrupt w = Some k ->
  length (out s) <= k < length (out s) + 5 ->
  device_check repr fuel w s
  = (Raised KeyboardInterrupt,
     mkState (out s ++ take (S k - length (out s))
                         (GetCount :: startup_calls name)) (polls s)).
Proof.
  intros Hd Hk Hr. unfold device_check, bind.
  destruct (decide (k = length (out s))) as [-> | Hne].
  - rewrite get_count_hit by exact Hk.
    replace (S (length (out s)) - length (out s)) with 1 by lia.
    reflexivity.
  - rewrite get_count_quiet by (rewrite Hk; intros [= E]; lia).
    rewrite Hd. cbn [length].
    destruct (decide (S (length rest) = 0)) as [E | _]; [discriminate E |].
    rewrite (with_controller_early_hit repr w fuel k _ name rest Hd Hk)
      by log_length.
    cbn [out polls]. rewrite length_app. cbn [length].
    replace (S k - length (out s)) with (S (S k - (length (out s) + 1)))
      by lia.
    cbn [take]. rewrite <- app_assoc. reflexivity.
Qed.

(** ** The module from its first line *)

Lemma pycontroller_run (repr : float -> string) (fuel : nat) (w : World) :
  interrupt w <> Some 0 ->
  interrupt w <> Some 1 ->
  pycontroller repr fuel w start
  = (Raised (NameError "c"), mkState [PygameInit; JoystickModuleInit] 0).
Proof.
  intros H0 H1. unfold pycontroller, bind, pygame.init, pygame.joystick.init.
  rewrite call_quiet by exact H0. cbn [out polls start app].
  rewrite call_quiet by exact H1. cbn [out polls app].
  rewrite load_c. reflexivity.
Qed.

Lemma pycontroller_log (repr : float -> string) (fuel : nat) (w : World) :
  exists e log,
    pycontroller repr fuel w start = (Raised e, mkState log 0)
    /\ (log = [PygameInit] \/ log = [PygameInit; JoystickModuleInit]).
Proof.
  unfold pycontroller, bind, pygame.init, pygame.joystick.init.
  destruct (decide (interrupt w = Some 0)) as [E0 | N0].
  - rewrite call_hit by exact E0. cbn. eauto.
  - rewrite call_quiet by exact N0. cbn [out polls start app].
    destruct (decide (interrupt w = Some 1)) as [E1 | N1].
    + rewrite call_hit by exact E1. cbn. eauto.
    + rewrite call_quiet by exact N1. cbn [out polls app].
      rewrite load_c. eauto.
Qed.

(** * The claims *)

(** C1.  Every run of the script ends in an exception before the number of
    joysticks is asked for and before anything is printed; unless the user
    interrupts one of the two initialisation calls, the exception is the
    [NameError] of the bare name [c] at line 5, raised after [pygame.init()]
    and [pygame.joystick.init()], whatever the devices and the events. *)
Theorem pycontroller_always_NameError (repr : float -> string) (fuel : nat)
    (w : World) :
  (interrupt w <> Some 0 -> interrupt w <> Some 1 ->
   pycontroller repr fuel w start
   = (Raised (NameError "c"), mkState [PygameInit; JoystickModuleInit] 0))
  /\ (exists e, (pycontroller repr fuel w start).1 = Raised e)
  /\ (GetCount ∉ out (pycontroller repr fuel w start).2)
  /\ (forall line, Print line ∉ out (pycontroller repr fuel w start).2).
Proof.
  split; [apply pycontroller_run |].
  destruct (pycontroller_log repr fuel w) as (e & log & -> & Hlog).
  cbn [fst snd out]. split; [eauto |].
  split; [| intros line]; destruct Hlog as [-> | ->]; intros H;
    repeat (apply elem_of_cons in H as [H | H]; [discriminate H |]);
    apply elem_of_nil in H; exact H.
Qed.

Lemma pycontroller_always_NameError_witness :
  pycontroller repr_half_only 3 (mkWorld ["X"] sample_queue (Some 7)) start
  = (Raised (NameError "c"), mkState [PygameInit; JoystickModuleInit] 0).
Proof.
  apply (pycontroller_always_NameError repr_half_only 3
           (mkWorld ["X"] sample_queue (Some 7))); discriminate.
Defined.

(** C2.  With no device connected the script does not get to print
    [No joystick found.]: line 5 raises [NameError] first, and nothing is
    printed. *)
Theorem no_joystick_message_not_reached (repr : float -> string)
    (fuel : nat) (events : nat -> list Event) :
  pycontroller repr fuel (mkWorld [] events None) start
  = (Raised (NameError "c"), mkState [PygameInit; JoystickModuleInit] 0)
  /\ (Print "No joystick found." ∉ [PygameInit; JoystickModuleInit]).
Proof.
  split; [apply pycontroller_run; discriminate |].
  intros H. repeat (apply elem_of_cons in H as [H | H]; [discriminate H |]).
  apply elem_of_nil in H. exact H.
Qed.

(** C5.  With a device named [X] connected the script does not get to bind
    it nor to print [Connected controller: X]: line 5 raises [NameError]
    first. *)
Theorem connected_message_not_reached (repr : float -> string) (fuel : nat)
    (X : string) (others : list string) (events : nat -> list Event) :
  pycontroller repr fuel (mkWorld (X :: others) events None) start
  = (Raised (NameError "c"), mkState [PygameInit; JoystickModuleInit] 0)
  /\ (NewJoystick 0 ∉ [PygameInit; JoystickModuleInit])
  /\ (Print ("Connected controller: " +:+ X)
        ∉ [PygameInit; JoystickModuleInit]).
Proof.
  split; [apply pycontroller_run; discriminate |].
  split; intros H;
    repeat (apply elem_of_cons in H as [H | H]; [discriminate H |]);
    apply elem_of_nil in H; exact H.
Qed.

(** C3, as the script has it.  The teardown belongs to the [try] statement
    of the branch with a device: every execution of that statement that
    ends, ends normally with [pygame.quit()] as its last call and its only
    call to it.  With no device connected the device check ends, normally
    or by an interruption, without any call to [pygame.quit()]. *)
Theorem teardown_after_try (repr : float -> string) (fuel : nat) (w : World)
    (s : State) :
  ((monitor repr fuel w s).1 = Running
   \/ exists log p,
        monitor repr fuel w s
        = (Done tt, mkState (out s ++ log ++ [PygameQuit]) p)
        /\ occurrences PygameQuit log = 0)
  /\ (devices w = [] ->
      exists r log,
        device_check repr fuel w s = (r, mkState (out s ++ log) (polls s))
        /\ r <> Running
        /\ occurrences PygameQuit log = 0).
Proof.
  split.
  - destruct (main_loop_cases repr w fuel s) as [Hrun | (k & p & Hk & Hr & _)].
    + left. unfold monitor, try_finally, try_except_KeyboardInterrupt.
      rewrite Hrun. reflexivity.
    + right. destruct (monitor_hit repr w k fuel s Hk Hr) as [p' Hp'].
      exists (take (S k - length (out s)) (loop_trace repr w (polls s) fuel)
                ++ [Print "Exiting."]), p'.
      split.
      * rewrite Hp'. rewrite <- !app_assoc. reflexivity.
      * rewrite occurrences_app.
        rewrite (loop_actions_no_quit repr)
          by (apply Forall_take, loop_trace_actions).
        reflexivity.
  - intros Hd. unfold device_check, bind.
    destruct (decide (interrupt w = Some (length (out s)))) as [E | N].
    + rewrite get_count_hit by exact E.
      exists (Raised KeyboardInterrupt), [GetCount].
      split; [reflexivity | split; [discriminate | reflexivity]].
    + rewrite get_count_quiet by exact N. rewrite Hd. cbn [length].
      destruct (decide (0 = 0)) as [_ | F]; [| destruct (F eq_refl)].
      unfold print.
      destruct (call_logged (Print "No joystick found.") w
                  (mkState (out s ++ [GetCount]) (polls s))) as [r Hr].
      rewrite Hr. cbn [out polls].
      exists r, [GetCount; Print "No joystick found."].
      split; [rewrite <- app_assoc; reflexivity |].
      split; [| reflexivity].
      revert Hr. unfold call. destruct (decide _); intros [= <-]; discriminate.
Qed.

Lemma teardown_after_try_witness :
  exists r log,
    device_check repr_half_only 2 no_device start = (r, mkState log 0)
    /\ r <> Running
    /\ occurrences PygameQuit log = 0.
Proof.
  exact (proj2 (teardown_after_try repr_half_only 2 no_device start) eq_refl).
Defined.

(** C3, as the claim has it, fails: with no device connected the device
    check ends normally and the whole script ends by its [NameError], and
    neither has called [pygame.quit()]. *)
Lemma teardown_not_on_every_exit :
  ~ (forall fuel w,
       (device_check repr_half_only fuel w start).1 <> Running ->
       PygameQuit ∈ out (device_check repr_half_only fuel w start).2)
  /\ ~ (forall fuel w,
          (pycontroller repr_half_only fuel w start).1 <> Running ->
          PygameQuit ∈ out (pycontroller repr_half_only fuel w start).2).
Proof.
  split; intros H; specialize (H 1 no_device).
  - assert (E : device_check repr_half_only 1 no_device start
                = (Done tt, mkState [GetCount; Print "No joystick found."] 0))
      by reflexivity.
    rewrite E in H. cbn [fst snd out] in H.
    specialize (H ltac:(discriminate)).
    repeat (apply elem_of_cons in H as [H | H]; [discriminate H |]).
    apply elem_of_nil in H. exact H.
  - rewrite (pycontroller_run repr_half_only 1 no_device) in H
      by discriminate.
    cbn [fst snd out] in H. specialize (H ltac:(discriminate)).
    repeat (apply elem_of_cons in H as [H | H]; [discriminate H |]).
    apply elem_of_nil in H. exact H.
Qed.

(** ** Counting in the logs of the branch with a device *)

Lemma startup_no_Exiting (name : string) :
  occurrences (Print "Exiting.") (GetCount :: startup_calls name) = 0.
Proof.
  apply occurrences_absent. unfold absent, startup_calls.
  repeat constructor; discriminate.
Qed.

Lemma startup_no_quit (name : string) :
  occurrences PygameQuit (GetCount :: startup_calls name) = 0.
Proof.
  apply occurrences_absent. unfold absent, startup_calls.
  repeat constructor; discriminate.
Qed.

Lemma absent_take (a : Action) (n : nat) (l : list Action) :
  absent a l -> absent a (take n l).
Proof. apply Forall_take. Qed.

(** C4.  Once the loop runs (the five calls of the startup are over), an
    interruption raised after any later call, whatever the events drained
    until then, makes the statement end normally: the log is the startup,
    then the polls and event lines up to the interruption, then
    [Exiting.] and [pygame.quit()], each of which occurs exactly once in
    what the statement has logged.  Fuel for as many turns as there are
    calls up to the interruption is enough to get there. *)
Theorem interrupted_loop_exits_once (repr : float -> string) (fuel : nat)
    (w : World) (s : State) (k : nat) (name : string) (others : list string) :
  devices w = name :: others ->
  interrupt w = Some k ->
  length (out s) + 5 <= k < length (out s) + 5 + fuel ->
  exists log p,
    device_check repr fuel w s
    = (Done tt,
       mkState (out s ++ (GetCount :: startup_calls name) ++ log
                  ++ [Print "Exiting."; PygameQuit]) p)
    /\ log = take (S k - (length (out s) + 5))
               (loop_trace repr w (polls s) fuel)
    /\ occurrences (Print "Exiting.")
         ((GetCount :: startup_calls name) ++ log
            ++ [Print "Exiting."; PygameQuit]) = 1
    /\ occurrences PygameQuit
         ((GetCount :: startup_calls name) ++ log
            ++ [Print "Exiting."; PygameQuit]) = 1.
Proof.
  intros Hd Hk Hr.
  rewrite (device_check_startup repr w fuel s name others Hd)
    by (intros k' Hk'; rewrite Hk in Hk'; injection Hk' as <-; lia).
  set (s1 := mkState (out s ++ GetCount :: startup_calls name) (polls s)).
  assert (Hlen : length (out s1) = length (out s) + 5)
    by (unfold s1; cbn [out]; rewrite length_app; reflexivity).
  destruct (monitor_hit repr w k fuel s1 Hk) as [p Hp].
  { rewrite Hlen. pose proof (loop_trace_length repr w fuel (polls s1)). lia. }
  rewrite Hp, Hlen. unfold s1. cbn [out polls].
  set (log := take (S k - (length (out s) + 5))
                (loop_trace repr w (polls s) fuel)).
  assert (Hlog : Forall (loop_action repr) log)
    by apply Forall_take, loop_trace_actions.
  exists log, p. split; [rewrite <- !app_assoc; reflexivity |].
  split; [reflexivity |].
  rewrite !occurrences_app, startup_no_Exiting, startup_no_quit.
  rewrite (loop_actions_no_Exiting repr log Hlog).
  rewrite (loop_actions_no_quit repr log Hlog).
  split; reflexivity.
Qed.

Lemma interrupted_loop_exits_once_witness :
  exists log p,
    device_check repr_half_only 5 (one_device (Some 9)) start
    = (Done tt,
       mkState ((GetCount :: startup_calls "X") ++ log
                  ++ [Print "Exiting."; PygameQuit]) p)
    /\ log = [EventGet; Print "Axis 1 moved to 0.5"; Print "Waiting";
              EventGet; EventGet]
    /\ occurrences (Print "Exiting.")
         ((GetCount :: startup_calls "X") ++ log
            ++ [Print "Exiting."; PygameQuit]) = 1
    /\ occurrences PygameQuit
         ((GetCount :: startup_calls "X") ++ log
            ++ [Print "Exiting."; PygameQuit]) = 1.
Proof.
  apply (interrupted_loop_exits_once repr_half_only 5 (one_device (Some 9))
           start 9 "X" []); [reflexivity | reflexivity | cbn; lia].
Defined.

(** C10.  With a device connected, an interruption raised after one of the
    five calls that come before the [try] statement (the count, the
    binding of joystick 0, its initialisation, its name, the line with the
    name) is not caught: the statement ends with [KeyboardInterrupt], its
    log stops at the interrupted call, and neither [Exiting.] nor
    [pygame.quit()] is in it. *)
Theorem interrupt_before_try_uncaught (repr : float -> string) (fuel : nat)
    (w : World) (s : State) (k : nat) (name : string) (others : list string) :
  devices w = name :: others ->
  interrupt w = Some k ->
  length (out s) <= k < length (out s) + 5 ->
  exists log,
    device_check repr fuel w s
    = (Raised KeyboardInterrupt, mkState (out s ++ log) (polls s))
    /\ log = take (S k - length (out s)) (GetCount :: startup_calls name)
    /\ absent (Print "Exiting.") log
    /\ absent PygameQuit log.
Proof.
  intros Hd Hk Hr. eexists. split.
  - apply (device_check_early_hit repr w fuel k s name others Hd Hk Hr).
  - split; [reflexivity |].
    split; apply absent_take; unfold absent, startup_calls;
      repeat constructor; discriminate.
Qed.

Lemma interrupt_before_try_uncaught_witness :
  exists log,
    device_check repr_half_only 5 (one_device (Some 4)) start
    = (Raised KeyboardInterrupt, mkState log 0)
    /\ log = [GetCount; NewJoystick 0; JoystickInit; GetName;
              Print "Connected controller: X"]
    /\ absent (Print "Exiting.") log
    /\ absent PygameQuit log.
Proof.
  apply (interrupt_before_try_uncaught repr_half_only 5
           (one_device (Some 4)) start 4 "X" []);
    [reflexivity | reflexivity | cbn; lia].
Defined.

(** ** One turn of the loop *)

Lemma one_turn (repr : float -> string) (w : World) (s : State) :
  uninterrupted w (length (out s))
    (length (out s) + S (length (queue w (polls s)))) ->
  main_loop repr 1 w s
  = (Running,
     mkState (out s ++ EventGet :: lines repr (queue w (polls s)))
       (polls s + 1)).
Proof.
  intros Hq. rewrite main_loop_quiet; cbn [loop_trace].
  - rewrite app_nil_r. reflexivity.
  - rewrite app_nil_r. cbn [length]. rewrite lines_length. exact Hq.
Qed.

Lemma drained_event (repr : float -> string) (w : World) (s : State)
    (before after : list Event) (e : Event) :
  queue w (polls s) = before ++ e :: after ->
  uninterrupted w (length (out s))
    (length (out s) + S (length (before ++ e :: after))) ->
  main_loop repr 1 w s
  = (Running,
     mkState (out s ++ EventGet :: lines repr before
                ++ Print (event_line repr e) :: lines repr after)
       (polls s + 1)).
Proof.
  intros Hb Hq. rewrite one_turn by (rewrite Hb; exact Hq).
  rewrite Hb. unfold lines. rewrite map_app. reflexivity.
Qed.

Lemma handle_event_logged (repr : float -> string) (e : Event) (w : World)
    (s : State) :
  exists r,
    handle_event repr e w s
    = (r, mkState (out s ++ [Print (event_line repr e)]) (polls s)).
Proof. rewrite handle_event_print. apply call_logged. Qed.

Lemma loop_trace_idle (repr : float -> string) (w : World) (n : nat) :
  forall p,
    (forall i, p <= i -> queue w i = []) ->
    loop_trace repr w p n = replicate n EventGet.
Proof.
  induction n as [| n IH]; intros p Hidle; cbn [loop_trace replicate].
  - reflexivity.
  - rewrite (Hidle p) by lia. cbn [lines map app].
    rewrite IH by (intros i Hi; apply Hidle; lia). reflexivity.
Qed.

(** C6.  The loop body logs exactly one call for an axis event, the line
    [Axis a moved to v] with the axis index in decimal and the value as
    Python formats it; and in a turn of the loop that drains a batch with
    such an event in it, this line stands in the log at the place of the
    event, between the lines of the events before it and after it.  For
    axis 1 and a value formatted as [0.5] the line is
    [Axis 1 moved to 0.5]. *)
Theorem axis_motion_line (repr : float -> string) (a : Z) (v : float)
    (w : World) (s : State) :
  (exists r,
     handle_event repr (JOYAXISMOTION a v) w s
     = (r, mkState (out s ++ [Print ("Axis " +:+ pretty a +:+ " moved to "
                                       +:+ repr v)]) (polls s)))
  /\ (forall before after,
        queue w (polls s) = before ++ JOYAXISMOTION a v :: after ->
        uninterrupted w (length (out s))
          (length (out s)
             + S (length (before ++ JOYAXISMOTION a v :: after))) ->
        main_loop repr 1 w s
        = (Running,
           mkState (out s ++ EventGet :: lines repr before
                      ++ Print ("Axis " +:+ pretty a +:+ " moved to "
                                  +:+ repr v) :: lines repr after)
             (polls s + 1)))
  /\ (a = 1%Z -> repr v = "0.5" ->
      "Axis " +:+ pretty a +:+ " moved to " +:+ repr v
      = "Axis 1 moved to 0.5").
Proof.
  split; [apply (handle_event_logged repr (JOYAXISMOTION a v)) |].
  split.
  - intros before after Hb Hq.
    apply (drained_event repr w s before after (JOYAXISMOTION a v) Hb Hq).
  - intros -> ->. reflexivity.
Qed.

Lemma axis_motion_line_witness :
  main_loop repr_half_only 1 (one_device None) start
  = (Running,
     mkState [EventGet; Print "Axis 1 moved to 0.5"; Print "Waiting"] 1)
  /\ "Axis " +:+ pretty 1%Z +:+ " moved to " +:+ repr_half_only half
     = "Axis 1 moved to 0.5".
Proof.
  destruct (axis_motion_line repr_half_only 1 half (one_device None) start)
    as (_ & Hloop & Hline).
  split.
  - apply (Hloop [] [OTHEREVENT 1538]); [reflexivity |].
    intros k Hk. discriminate Hk.
  - apply Hline; reflexivity.
Defined.

(** C7.  The loop body logs exactly one call for a button event: the line
    [Button b pressed] for a button-down event and [Button b released] for
    a button-up event, with the button index in decimal; and in a turn of
    the loop that drains a batch with such an event in it, this line
    stands in the log at the place of the event.  For button 3 the lines
    are [Button 3 pressed] and [Button 3 released]. *)
Theorem button_lines (repr : float -> string) (b : Z) (w : World)
    (s : State) :
  (exists r,
     handle_event repr (JOYBUTTONDOWN b) w s
     = (r, mkState (out s ++ [Print ("Button " +:+ pretty b +:+ " pressed")])
             (polls s)))
  /\ (exists r,
        handle_event repr (JOYBUTTONUP b) w s
        = (r, mkState (out s
                         ++ [Print ("Button " +:+ pretty b +:+ " released")])
                (polls s)))
  /\ (forall before after,
        queue w (polls s) = before ++ JOYBUTTONDOWN b :: after ->
        uninterrupted w (length (out s))
          (length (out s) + S (length (before ++ JOYBUTTONDOWN b :: after))) ->
        main_loop repr 1 w s
        = (Running,
           mkState (out s ++ EventGet :: lines repr before
                      ++ Print ("Button " +:+ pretty b +:+ " pressed")
                      :: lines repr after)
             (polls s + 1)))
  /\ (forall before after,
        queue w (polls s) = before ++ JOYBUTTONUP b :: after ->
        uninterrupted w (length (out s))
          (length (out s) + S (length (before ++ JOYBUTTONUP b :: after))) ->
        main_loop repr 1 w s
        = (Running,
           mkState (out s ++ EventGet :: lines repr before
                      ++ Print ("Button " +:+ pretty b +:+ " released")
                      :: lines repr after)
             (polls s + 1)))
  /\ (b = 3%Z ->
      "Button " +:+ pretty b +:+ " pressed" = "Button 3 pressed"
      /\ "Button " +:+ pretty b +:+ " released" = "Button 3 released").
Proof.
  split; [apply (handle_event_logged repr (JOYBUTTONDOWN b)) |].
  split; [apply (handle_event_logged repr (JOYBUTTONUP b)) |].
  split; [| split].
  - intros before after Hb Hq.
    apply (drained_event repr w s before after (JOYBUTTONDOWN b) Hb Hq).
  - intros before after Hb Hq.
    apply (drained_event repr w s before after (JOYBUTTONUP b) Hb Hq).
  - intros ->. split; reflexivity.
Qed.

Lemma button_lines_witness :
  main_loop repr_half_only 1 (one_device None) (mkState [] 2)
  = (Running,
     mkState [EventGet; Print "Button 3 pressed"; Print "Button 3 released"]
       3)
  /\ "Button " +:+ pretty 3%Z +:+ " pressed" = "Button 3 pressed"
  /\ "Button " +:+ pretty 3%Z +:+ " released" = "Button 3 released".
Proof.
  destruct (button_lines repr_half_only 3 (one_device None) (mkState [] 2))
    as (_ & _ & _ & Hup & Hlines).
  split; [| exact (Hlines eq_refl)].
  apply (Hup [JOYBUTTONDOWN 3] []); [reflexivity |].
  intros k Hk. discriminate Hk.
Defined.

(** C8.  The loop body logs exactly one call for every event, a printed
    line, and for an event of none of the three types it tests for the
    line is [Waiting]; a turn of the loop that is not interrupted logs its
    poll and then as many lines as the batch has events, and the line at
    the place of an event of another type is [Waiting]. *)
Theorem other_event_waiting (repr : float -> string) (e : Event)
    (w : World) (s : State) :
  (exists r line,
     handle_event repr e w s = (r, mkState (out s ++ [Print line]) (polls s))
     /\ (unhandled e -> line = "Waiting"))
  /\ (uninterrupted w (length (out s))
        (length (out s) + S (length (queue w (polls s)))) ->
      exists printed,
        main_loop repr 1 w s
        = (Running, mkState (out s ++ EventGet :: printed) (polls s + 1))
        /\ length printed = length (queue w (polls s))
        /\ (forall i, queue w (polls s) !! i = Some e -> unhandled e ->
             printed !! i = Some (Print "Waiting"))).
Proof.
  split.
  - destruct (handle_event_logged repr e w s) as [r Hr].
    exists r, (event_line repr e). split; [exact Hr |].
    intros (Haxis & Hdown & Hup). destruct e as [a v | b | b | t].
    + destruct (Haxis a v eq_refl).
    + destruct (Hdown b eq_refl).
    + destruct (Hup b eq_refl).
    + reflexivity.
  - intros Hq. exists (lines repr (queue w (polls s))).
    split; [apply one_turn, Hq |].
    split; [apply lines_length |].
    intros i Hi (Haxis & Hdown & Hup). unfold lines.
    rewrite list_lookup_fmap, Hi. cbn [fmap option_fmap option_map].
    destruct e as [a v | b | b | t].
    + destruct (Haxis a v eq_refl).
    + destruct (Hdown b eq_refl).
    + destruct (Hup b eq_refl).
    + reflexivity.
Qed.

Lemma other_event_waiting_witness :
  (exists r line,
     handle_event repr_half_only (OTHEREVENT 1538) (one_device None) start
     = (r, mkState [Print line] 0)
     /\ line = "Waiting")
  /\ exists printed,
       main_loop repr_half_only 1 (one_device None) start
       = (Running, mkState (EventGet :: printed) 1)
       /\ length printed = 2
       /\ printed !! 1 = Some (Print "Waiting").
Proof.
  assert (Hother : unhandled (OTHEREVENT 1538))
    by (repeat split; intros; discriminate).
  destruct (other_event_waiting repr_half_only (OTHEREVENT 1538)
              (one_device None) start) as [Hbody Hturn].
  split.
  - destruct Hbody as (r & line & Hr & Hline).
    exists r, line. split; [exact Hr | exact (Hline Hother)].
  - destruct Hturn as (printed & Hrun & Hlen & Hat).
    + intros k Hk. discriminate Hk.
    + exists printed. split; [exact Hrun |]. split; [exact Hlen |].
      apply Hat; [reflexivity | exact Hother].
Defined.

(** C9.  The loop does not end by itself.  Without an interruption it is
    still running after any number of turns, whatever the events: each
    turn has made its poll and printed the lines of its batch.  In no
    world at all does it end normally.  When the queue stays empty every
    turn is a poll and nothing else, one right after the other; and a turn
    whose poll returns nothing is over with that poll, the rest of the loop
    going on from there at once. *)
Theorem main_loop_never_exits (repr : float -> string) (fuel : nat)
    (w : World) (s : State) :
  (interrupt w = None ->
   main_loop repr fuel w s
   = (Running,
      mkState (out s ++ loop_trace repr w (polls s) fuel) (polls s + fuel)))
  /\ (forall a s', main_loop repr fuel w s <> (Done a, s'))
  /\ (interrupt w = None ->
      (forall i, polls s <= i -> queue w i = []) ->
      main_loop repr fuel w s
      = (Running,
         mkState (out s ++ replicate fuel EventGet) (polls s + fuel)))
  /\ (interrupt w <> Some (length (out s)) ->
      queue w (polls s) = [] ->
      main_loop repr (S fuel) w s
      = main_loop repr fuel w (mkState (out s ++ [EventGet]) (S (polls s)))).
Proof.
  split; [| split; [| split]].
  - intros Hn. apply main_loop_quiet, uninterrupted_None, Hn.
  - intros a s' E.
    destruct (main_loop_cases repr w fuel s) as [H | (k & p & _ & _ & H)];
      rewrite H in E; discriminate E.
  - intros Hn Hidle.
    rewrite main_loop_quiet by (apply uninterrupted_None, Hn).
    rewrite (loop_trace_idle repr w fuel (polls s) Hidle). reflexivity.
  - intros Hn Hempty. cbn [main_loop]. unfold bind at 1.
    rewrite event_get_quiet by exact Hn. rewrite Hempty. reflexivity.
Qed.

Lemma main_loop_never_exits_witness :
  main_loop repr_half_only 4 (one_device None) start
  = (Running,
     mkState [EventGet; Print "Axis 1 moved to 0.5"; Print "Waiting";
              EventGet;
              EventGet; Print "Button 3 pressed"; Print "Button 3 released";
              EventGet] 4)
  /\ main_loop repr_half_only 4 no_device start
     = (Running, mkState [EventGet; EventGet; EventGet; EventGet] 4).
Proof.
  split.
  - apply (main_loop_never_exits repr_half_only 4 (one_device None) start).
    reflexivity.
  - apply (main_loop_never_exits repr_half_only 4 no_device start);
      reflexivity.
Defined.

(** * Further properties of the statements *)

(** ** The ways the device check ends *)

Lemma loop_actions_absent (repr : float -> string) (a : Action)
    (l : list Action) :
  a <> EventGet -> (forall line, a <> Print line) ->
  Forall (loop_action repr) l -> absent a l.
Proof.
  intros Hget Hprint H. unfold absent. eapply Forall_impl; [exact H |].
  intros x [-> | [e ->]]; [congruence | intros E; exact (Hprint _ (eq_sym E))].
Qed.

Lemma device_check_cases (repr : float -> string) (fuel : nat) (w : World)
    (s : State) :
  exists r rest p,
    device_check repr fuel w s = (r, mkState (out s ++ GetCount :: rest) p)
    /\ ((devices w = [] /\ r = Raised KeyboardInterrupt /\ rest = [])
        \/ (devices w = []
            /\ (r = Done tt \/ r = Raised KeyboardInterrupt)
            /\ rest = [Print "No joystick found."])
        \/ (exists name others j,
              devices w = name :: others
              /\ r = Raised KeyboardInterrupt
              /\ rest = take j (startup_calls name))
        \/ (exists name others log,
              devices w = name :: others
              /\ Forall (loop_action repr) log
              /\ r = Running
              /\ rest = startup_calls name ++ log)
        \/ (exists name others log,
              devices w = name :: others
              /\ Forall (loop_action repr) log
              /\ r = Done tt
              /\ rest = startup_calls name ++ log
                          ++ [Print "Exiting."; PygameQuit])).
Proof.
  destruct (devices w) as [| name others] eqn:Hd.
  - unfold device_check, bind.
    destruct (decide (interrupt w = Some (length (out s)))) as [E | N].
    + rewrite get_count_hit by exact E. eexists _, [], _.
      split; [reflexivity | left; auto].
    + rewrite get_count_quiet by exact N. rewrite Hd. cbn [length].
      destruct (decide (0 = 0)) as [_ | F]; [| destruct (F eq_refl)].
      unfold print, call. cbn [out polls].
      destruct (decide _); eexists _, [Print "No joystick found."], _;
        (split; [rewrite <- app_assoc; reflexivity | right; left; auto]).
  - destruct (interrupt w) as [k |] eqn:Hk.
    + destruct (decide (length (out s) <= k < length (out s) + 5))
        as [Hearly | Hlate].
      * rewrite (device_check_early_hit repr w fuel k s name others Hd Hk
                   Hearly).
        replace (S k - length (out s)) with (S (k - length (out s))) by lia.
        cbn [take]. eexists _, _, _. split; [reflexivity |].
        right; right; left. exists name, others, (k - length (out s)). auto.
      * rewrite (device_check_startup repr w fuel s name others Hd)
          by (intros k' Hk'; rewrite Hk in Hk'; injection Hk' as <-; lia).
        set (s1 := mkState (out s ++ GetCount :: startup_calls name)
                     (polls s)).
        destruct (decide (length (out s1) <= k
                  < length (out s1)
                    + length (loop_trace repr w (polls s1) fuel)))
          as [Hin | Hout].
        -- destruct (monitor_hit repr w k fuel s1 Hk Hin) as [p Hp].
           rewrite Hp. unfold s1. cbn [out polls].
           eexists _, _, _. split.
           ++ rewrite <- !app_assoc. cbn [app]. reflexivity.
           ++ right; right; right; right. eexists name, others, _.
              split; [reflexivity |].
              split; [apply Forall_take, loop_trace_actions |]. auto.
        -- rewrite monitor_quiet
             by (intros k' Hk'; rewrite Hk in Hk'; injection Hk' as <-; lia).
           unfold s1. cbn [out polls]. eexists _, _, _. split.
           ++ rewrite <- !app_assoc. cbn [app]. reflexivity.
           ++ right; right; right; left. eexists name, others, _.
              split; [reflexivity |].
              split; [apply loop_trace_actions |]. auto.
    + rewrite (device_check_startup repr w fuel s name others Hd)
        by (apply uninterrupted_None, Hk).
      rewrite monitor_quiet by (apply uninterrupted_None, Hk).
      cbn [out polls]. eexists _, _, _. split.
      * rewrite <- !app_assoc. cbn [app]. reflexivity.
      * right; right; right; left. eexists name, others, _.
        split; [reflexivity |].
        split; [apply loop_trace_actions |]. auto.
Qed.

Lemma occurrences_cons_eq (a : Action) (l : list Action) :
  occurrences a (a :: l) = S (occurrences a l).
Proof. unfold occurrences. rewrite filter_cons_True by reflexivity. reflexivity. Qed.

Lemma occurrences_cons_ne (a b : Action) (l : list Action) :
  b <> a -> occurrences a (b :: l) = occurrences a l.
Proof. intros H. unfold occurrences. rewrite filter_cons_False by exact H. reflexivity. Qed.

Lemma occurrences_take_le (a : Action) (n : nat) (l : list Action) :
  occurrences a (take n l) <= occurrences a l.
Proof.
  rewrite <- (take_drop n l) at 2. rewrite occurrences_app. lia.
Qed.

Lemma startup_one_joystick (name : string) :
  occurrences (NewJoystick 0) (startup_calls name) = 1.
Proof.
  unfold startup_calls. rewrite occurrences_cons_eq.
  rewrite !occurrences_cons_ne by discriminate. reflexivity.
Qed.

Lemma startup_absent (a : Action) (name : string) :
  a <> NewJoystick 0 -> a <> JoystickInit -> a <> GetName ->
  (forall line, a <> Print line) ->
  absent a (startup_calls name).
Proof.
  intros H1 H2 H3 H4. unfold absent, startup_calls.
  repeat constructor; congruence.
Qed.


(** X2.  The devices are counted once, as the first call of the device check,
    and never again; joystick 0 is bound at most once and no joystick of
    another index is ever bound. *)
Theorem devices_enumerated_once (repr : float -> string) (fuel : nat)
    (w : World) (s : State) :
  exists r rest p,
    device_check repr fuel w s = (r, mkState (out s ++ GetCount :: rest) p)
    /\ occurrences GetCount rest = 0
    /\ occurrences (NewJoystick 0) rest <= 1
    /\ (forall i, occurrences (NewJoystick (S i)) rest = 0).
Proof.
  destruct (device_check_cases repr fuel w s) as (r & rest & p & E & H).
  exists r, rest, p. split; [exact E |].
  assert (Hloop : forall a log, a <> EventGet -> (forall line, a <> Print line) ->
            Forall (loop_action repr) log -> occurrences a log = 0).
  { intros a log H1 H2 Hl. apply occurrences_absent.
    apply (loop_actions_absent repr a log H1 H2 Hl). }
  assert (Hstart : forall a name, a <> NewJoystick 0 -> a <> JoystickInit ->
            a <> GetName -> (forall line, a <> Print line) ->
            occurrences a (startup_calls name) = 0).
  { intros a name H1 H2 H3 H4. apply occurrences_absent, startup_absent; auto. }
  destruct H as [(_ & _ & ->) | [(_ & _ & ->) | [(n & o & j & _ & _ & ->)
    | [(n & o & l & _ & Hl & _ & ->) | (n & o & l & _ & Hl & _ & ->)]]]].
  - repeat split; try intros i; reflexivity || (cbn; lia).
  - repeat split; try intros i;
      rewrite ?occurrences_cons_ne by discriminate; reflexivity || (cbn; lia).
  - split; [| split; [| intros i]].
    + apply occurrences_absent, absent_take, startup_absent; discriminate.
    + pose proof (occurrences_take_le (NewJoystick 0) j (startup_calls n)).
      rewrite startup_one_joystick in H. exact H.
    + apply occurrences_absent, absent_take, startup_absent; discriminate.
  - rewrite !occurrences_app, startup_one_joystick.
    rewrite (Hstart GetCount) by discriminate.
    rewrite (Hloop GetCount), (Hloop (NewJoystick 0))
      by (discriminate || exact Hl).
    split; [reflexivity | split; [lia | intros i]].
    rewrite occurrences_app, Hstart, Hloop by (discriminate || exact Hl).
    reflexivity.
  - rewrite !occurrences_app, startup_one_joystick.
    rewrite (Hstart GetCount) by discriminate.
    rewrite (Hloop GetCount), (Hloop (NewJoystick 0))
      by (discriminate || exact Hl).
    rewrite !occurrences_cons_ne by discriminate.
    split; [reflexivity | split; [cbn; lia | intros i]].
    rewrite !occurrences_app, Hstart, Hloop by (discriminate || exact Hl).
    rewrite !occurrences_cons_ne by discriminate. reflexivity.
Qed.

(** ** The branch without a device *)

(** X3.  With no device connected the device check never polls the event queue
    and never binds a joystick.  Not interrupted, it logs the count and the
    line [No joystick found.] and ends normally; an interruption after the
    count stops it before the line, one after the line stops it after it,
    and in both cases [KeyboardInterrupt] leaves the statement, as no
    handler surrounds this branch. *)
Theorem no_joystick_path (repr : float -> string) (fuel : nat) (w : World)
    (s : State) :
  devices w = [] ->
  (uninterrupted w (length (out s)) (length (out s) + 2) ->
   device_check repr fuel w s
   = (Done tt,
      mkState (out s ++ [GetCount; Print "No joystick found."]) (polls s)))
  /\ (interrupt w = Some (length (out s)) ->
      device_check repr fuel w s
      = (Raised KeyboardInterrupt, mkState (out s ++ [GetCount]) (polls s)))
  /\ (interrupt w = Some (S (length (out s))) ->
      device_check repr fuel w s
      = (Raised KeyboardInterrupt,
         mkState (out s ++ [GetCount; Print "No joystick found."]) (polls s))).
Proof.
  intros Hd. split; [apply device_check_no_joystick, Hd |]. split.
  - intros Hk. unfold device_check, bind.
    rewrite get_count_hit by exact Hk. reflexivity.
  - intros Hk. unfold device_check, bind.
    rewrite get_count_quiet by (rewrite Hk; intros [= E]; lia).
    rewrite Hd. cbn [length].
    destruct (decide (0 = 0)) as [_ | F]; [| destruct (F eq_refl)].
    unfold print. rewrite call_hit by (rewrite Hk; f_equal; log_length).
    cbn [out polls]. rewrite <- app_assoc. reflexivity.
Qed.

Lemma no_joystick_path_witness :
  device_check repr_half_only 3 no_device start
  = (Done tt, mkState [GetCount; Print "No joystick found."] 0)
  /\ device_check repr_half_only 3 (mkWorld [] sample_queue (Some 1)) start
     = (Raised KeyboardInterrupt,
        mkState [GetCount; Print "No joystick found."] 0).
Proof.
  split.
  - apply (no_joystick_path repr_half_only 3 no_device start); [reflexivity |].
    intros k Hk. discriminate Hk.
  - apply (no_joystick_path repr_half_only 3
             (mkWorld [] sample_queue (Some 1)) start); reflexivity.
Defined.

(** ** The branch with a device *)

Lemma monitor_extends (repr : float -> string) (fuel : nat) (w : World)
    (s : State) :
  exists r log p, monitor repr fuel w s = (r, mkState (out s ++ log) p).
Proof.
  destruct (interrupt w) as [k |] eqn:Hk.
  - destruct (decide (length (out s) <= k
        < length (out s) + length (loop_trace repr w (polls s) fuel)))
      as [Hin | Hout].
    + destruct (monitor_hit repr w k fuel s Hk Hin) as [p Hp].
      rewrite Hp. eauto.
    + rewrite monitor_quiet
        by (intros k' Hk'; rewrite Hk in Hk'; injection Hk' as <-; lia).
      eauto.
  - rewrite monitor_quiet by (apply uninterrupted_None, Hk). eauto.
Qed.

(** X4.  With a device connected and no interruption during the startup, the
    device check binds joystick 0, initialises it, asks for its name and
    prints [Connected controller:] with the name of the first device, in
    this order and before the first poll of the event queue: whatever else
    is logged comes after these calls. *)
Theorem controller_announced_first (repr : float -> string) (fuel : nat)
    (w : World) (s : State) (name : string) (others : list string) :
  devices w = name :: others ->
  uninterrupted w (length (out s)) (length (out s) + 5) ->
  exists r log p,
    device_check repr fuel w s
    = (r,
       mkState (out s
                  ++ [GetCount; NewJoystick 0; JoystickInit; GetName;
                      Print ("Connected controller: " +:+ name)]
                  ++ log) p).
Proof.
  intros Hd Hq. rewrite (device_check_startup repr w fuel s name others Hd Hq).
  destruct (monitor_extends repr fuel w
              (mkState (out s ++ GetCount :: startup_calls name) (polls s)))
    as (r & log & p & ->).
  cbn [out]. exists r, log, p. rewrite <- app_assoc. reflexivity.
Qed.

Lemma controller_announced_first_witness :
  exists r log p,
    device_check repr_half_only 1 (one_device None) start
    = (r,
       mkState ([GetCount; NewJoystick 0; JoystickInit; GetName;
                 Print "Connected controller: X"] ++ log) p).
Proof.
  apply (controller_announced_first repr_half_only 1 (one_device None) start
           "X" []); [reflexivity |].
  intros k Hk. discriminate Hk.
Defined.

(** ** Only the first device counts *)

Lemma call_same (a : Action) (w w' : World) (s : State) :
  interrupt w = interrupt w' -> call a w s = call a w' s.
Proof. intros H. unfold call. rewrite H. reflexivity. Qed.

Lemma for_each_same (repr : float -> string) (w w' : World)
    (l : list Event) :
  interrupt w = interrupt w' ->
  forall s, for_each l (handle_event repr) w s
            = for_each l (handle_event repr) w' s.
Proof.
  intros Hi. induction l as [| e l IH]; intros s; cbn [for_each].
  - reflexivity.
  - unfold bind. rewrite handle_event_print. unfold print.
    rewrite (call_same _ w w' s Hi).
    destruct (call (Print (event_line repr e)) w' s) as [[[] | e' |] s1];
      [apply IH | reflexivity | reflexivity].
Qed.

Lemma main_loop_same (repr : float -> string) (w w' : World) (fuel : nat) :
  queue w = queue w' ->
  interrupt w = interrupt w' ->
  forall s, main_loop repr fuel w s = main_loop repr fuel w' s.
Proof.
  intros Hq Hi. induction fuel as [| fuel IH]; intros s; cbn [main_loop].
  - reflexivity.
  - unfold bind at 1 3. unfold pygame.event.get, bind at 1 3.
    rewrite (call_same _ w w' _ Hi), Hq.
    destruct (call EventGet w' _) as [[[] | e' |] s1];
      [| reflexivity | reflexivity].
    unfold ret, bind. rewrite (for_each_same repr w w' _ Hi).
    destruct (for_each _ _ w' s1) as [[[] | e' |] s2];
      [apply IH | reflexivity | reflexivity].
Qed.

Lemma monitor_same (repr : float -> string) (w w' : World) (fuel : nat)
    (s : State) :
  queue w = queue w' ->
  interrupt w = interrupt w' ->
  monitor repr fuel w s = monitor repr fuel w' s.
Proof.
  intros Hq Hi. unfold monitor, try_finally, try_except_KeyboardInterrupt.
  rewrite (main_loop_same repr w w' fuel Hq Hi s).
  destruct (main_loop repr fuel w' s) as [[[] | e |] s1]; try reflexivity.
  - unfold pygame.quit. rewrite (call_same _ w w' s1 Hi). reflexivity.
  - destruct e; unfold print, pygame.quit;
      rewrite ?(call_same _ w w' s1 Hi); try reflexivity.
    destruct (call (Print "Exiting.") w' s1) as [[[] | e |] s2];
      rewrite ?(call_same _ w w' s2 Hi); reflexivity.
Qed.

(** X5.  The devices after the first one change nothing: two worlds that agree
    on the name of the first device, on the event queue and on the
    interruption give the device check the same end and the same log,
    however many other devices each of them has. *)
Theorem other_devices_ignored (repr : float -> string) (fuel : nat)
    (w w' : World) (s : State) (name : string) (others others' : list string) :
  devices w = name :: others ->
  devices w' = name :: others' ->
  queue w = queue w' ->
  interrupt w = interrupt w' ->
  device_check repr fuel w s = device_check repr fuel w' s.
Proof.
  intros Hd Hd' Hq Hi.
  unfold device_check, with_controller, pygame.joystick.get_count,
    pygame.joystick.Joystick, pygame.Joystick.init,
    pygame.Joystick.get_name, print, bind, ret.
  rewrite Hd, Hd'. cbn [length].
  rewrite (call_same _ w w' s Hi).
  destruct (call GetCount w' s) as [[[] | e |] s1]; try reflexivity.
  destruct (decide (S (length others) = 0)) as [E | _]; [discriminate E |].
  destruct (decide (S (length others') = 0)) as [E | _]; [discriminate E |].
  rewrite (call_same _ w w' s1 Hi).
  destruct (call (NewJoystick 0) w' s1) as [[[] | e |] s2]; try reflexivity.
  rewrite Hd, Hd'. cbn [length].
  destruct (decide (0 < S (length others))) as [_ | N]; [| lia].
  destruct (decide (0 < S (length others'))) as [_ | N]; [| lia].
  rewrite (call_same _ w w' s2 Hi).
  destruct (call JoystickInit w' s2) as [[[] | e |] s3]; try reflexivity.
  rewrite (call_same _ w w' s3 Hi).
  destruct (call GetName w' s3) as [[[] | e |] s4]; try reflexivity.
  rewrite ?Hd, ?Hd'. cbn [lookup list_lookup default].
  rewrite (call_same _ w w' s4 Hi).
  destruct (call (Print _) w' s4) as [[[] | e |] s5]; try reflexivity.
  apply monitor_same; assumption.
Qed.

Lemma other_devices_ignored_witness :
  device_check repr_half_only 4 (mkWorld ["X"; "Y"; "Z"] sample_queue (Some 7))
    start
  = device_check repr_half_only 4 (one_device (Some 7)) start.
Proof.
  apply (other_devices_ignored repr_half_only 4
           (mkWorld ["X"; "Y"; "Z"] sample_queue (Some 7))
           (one_device (Some 7)) start "X" ["Y"; "Z"] []); reflexivity.
Defined.

(** ** An interruption in the middle of a batch *)

Lemma try_statement_interrupted (body : M unit) (w : World) (s s1 : State) :
  body w s = (Raised KeyboardInterrupt, s1) ->
  interrupt w <> Some (length (out s1)) ->
  interrupt w <> Some (S (length (out s1))) ->
  try_statement body w s
  = (Done tt, mkState (out s1 ++ [Print "Exiting."; PygameQuit]) (polls s1)).
Proof.
  intros Hb H1 H2.
  unfold try_statement, try_finally, try_except_KeyboardInterrupt.
  rewrite Hb. unfold print, pygame.quit.
  rewrite call_quiet by exact H1.
  rewrite call_quiet
    by (cbn [out]; rewrite length_app; cbn [length];
        rewrite Nat.add_1_r; exact H2).
  cbn [out polls]. rewrite <- app_assoc. reflexivity.
Qed.

(** X6.  The events of a batch that have not been printed when the
    interruption comes are lost.  When the interruption is raised after the
    call number [j] of a turn (the poll is number 0, so [j] events have
    been printed), the [try] statement ends normally having printed the
    lines of the first [j] events of the batch only, then [Exiting.], and
    having called [pygame.quit()]; the rest of the batch is gone with the
    poll that drained it. *)
Theorem interrupted_batch_is_dropped (repr : float -> string) (fuel : nat)
    (w : World) (s : State) (j : nat) :
  interrupt w = Some (length (out s) + j) ->
  j <= length (queue w (polls s)) ->
  monitor repr (S fuel) w s
  = (Done tt,
     mkState (out s ++ EventGet :: lines repr (take j (queue w (polls s)))
                ++ [Print "Exiting."; PygameQuit])
       (S (polls s))).
Proof.
  intros Hk Hj.
  set (batch := queue w (polls s)) in *.
  assert (Hloop : main_loop repr (S fuel) w s
                  = (Raised KeyboardInterrupt,
                     mkState (out s ++ EventGet :: lines repr (take j batch))
                       (S (polls s)))).
  { cbn [main_loop]. unfold bind. destruct j as [| j].
    - rewrite event_get_hit by (rewrite Hk; f_equal; lia). reflexivity.
    - rewrite event_get_quiet by (rewrite Hk; intros [= E]; lia).
      fold batch.
      rewrite (for_each_hit repr w (length (out s) + S j) batch Hk)
        by log_length.
      cbn [out polls]. rewrite take_past by log_length.
      rewrite length_app. cbn [length].
      replace (S (length (out s) + S j) - (length (out s) + 1)) with (S j)
        by lia.
      unfold lines. rewrite fmap_take, <- app_assoc. reflexivity. }
  assert (Hlen : length (out s ++ EventGet :: lines repr (take j batch))
                 = S (length (out s) + j)).
  { rewrite length_app. cbn [length].
    rewrite lines_length, length_take. lia. }
  change (monitor repr (S fuel) w s)
    with (try_statement (main_loop repr (S fuel)) w s).
  rewrite (try_statement_interrupted _ w s _ Hloop)
    by (cbn [out]; rewrite Hlen, Hk; intros [= E]; lia).
  cbn [out polls]. rewrite <- app_assoc. reflexivity.
Qed.

Lemma interrupted_batch_is_dropped_witness :
  monitor repr_half_only 1 (one_device (Some 1)) start
  = (Done tt,
     mkState [EventGet; Print "Axis 1 moved to 0.5";
              Print "Exiting."; PygameQuit] 1).
Proof.
  apply (interrupted_batch_is_dropped repr_half_only 0 (one_device (Some 1))
           start 1); [reflexivity | cbn; lia].
Defined.

(** ** Many turns of the loop *)

Lemma printed_lines_of_lines (repr : float -> string) (l : list Event) :
  printed_lines (lines repr l) = map (event_line repr) l.
Proof.
  unfold printed_lines, lines. induction l as [| e l IH]; [reflexivity |].
  cbn [map omap list_omap]. rewrite <- IH. reflexivity.
Qed.

Lemma printed_lines_app (l1 l2 : list Action) :
  printed_lines (l1 ++ l2) = printed_lines l1 ++ printed_lines l2.
Proof. unfold printed_lines. apply omap_app. Qed.

Lemma printed_lines_loop_trace (repr : float -> string) (w : World)
    (n : nat) :
  forall p,
    printed_lines (loop_trace repr w p n)
    = map (event_line repr) (drained w p n).
Proof.
  induction n as [| n IH]; intros p; cbn [loop_trace drained].
  - reflexivity.
  - change (EventGet :: ?l) with ([EventGet] ++ l).
    rewrite !printed_lines_app, printed_lines_of_lines, IH, map_app.
    reflexivity.
Qed.

Lemma polls_in_loop_trace (repr : float -> string) (w : World) (n : nat) :
  forall p, occurrences EventGet (loop_trace repr w p n) = n.
Proof.
  induction n as [| n IH]; intros p; cbn [loop_trace].
  - reflexivity.
  - rewrite occurrences_cons_eq, occurrences_app, IH.
    rewrite occurrences_absent; [reflexivity |].
    unfold absent, lines. apply Forall_map, Forall_forall.
    intros e _. discriminate.
Qed.

(** X7.  No event is lost, doubled or reordered while the loop is not
    interrupted: after any number of turns the lines printed are, in
    order, the lines of the events of all the batches drained so far, one
    line for each event, and the queue has been polled once in each turn. *)
Theorem events_reported_in_order (repr : float -> string) (fuel : nat)
    (w : World) (s : State) :
  interrupt w = None ->
  exists log,
    main_loop repr fuel w s
    = (Running, mkState (out s ++ log) (polls s + fuel))
    /\ printed_lines log
       = map (event_line repr) (drained w (polls s) fuel)
    /\ length (printed_lines log) = length (drained w (polls s) fuel)
    /\ occurrences EventGet log = fuel.
Proof.
  intros Hn. exists (loop_trace repr w (polls s) fuel).
  split; [apply main_loop_quiet, uninterrupted_None, Hn |].
  rewrite printed_lines_loop_trace, length_map.
  split; [reflexivity | split; [reflexivity | apply polls_in_loop_trace]].
Qed.

Lemma events_reported_in_order_witness :
  exists log,
    main_loop repr_half_only 3 (one_device None) start
    = (Running, mkState log 3)
    /\ printed_lines log
       = ["Axis 1 moved to 0.5"; "Waiting";
          "Button 3 pressed"; "Button 3 released"]
    /\ length (printed_lines log) = 4
    /\ occurrences EventGet log = 3.
Proof.
  apply (events_reported_in_order repr_half_only 3 (one_device None) start).
  reflexivity.
Defined.

(** ** What the [try] statement catches *)

(** X8.  The [except] clause is for [KeyboardInterrupt] only.  When the body of
    the [try] statement raises another exception, [Exiting.] is not
    printed, [pygame.quit()] is still called, and the exception leaves the
    statement after it; when the body raises [KeyboardInterrupt] the
    statement prints [Exiting.], calls [pygame.quit()] and ends normally.
    The statement of the script is the one whose body is the loop. *)
Theorem try_statement_catches_KeyboardInterrupt_only (repr : float -> string)
    (fuel : nat) (body : M unit) (w : World) (s s1 : State) (e : Exn) :
  body w s = (Raised e, s1) ->
  interrupt w <> Some (length (out s1)) ->
  interrupt w <> Some (S (length (out s1))) ->
  monitor repr fuel = try_statement (main_loop repr fuel)
  /\ (e <> KeyboardInterrupt ->
      try_statement body w s
      = (Raised e, mkState (out s1 ++ [PygameQuit]) (polls s1)))
  /\ (e = KeyboardInterrupt ->
      try_statement body w s
      = (Done tt,
         mkState (out s1 ++ [Print "Exiting."; PygameQuit]) (polls s1))).
Proof.
  intros Hb H1 H2. split; [reflexivity |]. split.
  - intros Hne.
    unfold try_statement, try_finally, try_except_KeyboardInterrupt.
    rewrite Hb. unfold pygame.quit.
    destruct e as [n | |]; [| destruct (Hne eq_refl) |];
      rewrite call_quiet by exact H1; reflexivity.
  - intros ->. apply (try_statement_interrupted body w s s1 Hb H1 H2).
Qed.

Lemma try_statement_catches_KeyboardInterrupt_only_witness :
  try_statement (raise PygameError) no_device start
  = (Raised PygameError, mkState [PygameQuit] 0).
Proof.
  apply (try_statement_catches_KeyboardInterrupt_only repr_half_only 0
           (raise PygameError) no_device start start PygameError);
    [reflexivity | discriminate | discriminate | discriminate].
Defined.

(** ** What a printed line tells *)

Lemma append_length (x y : string) :
  String.length (x +:+ y) = String.length x + String.length y.
Proof.
  induction x as [| c x IH]; [reflexivity |].
  change (S (String.length (x +:+ y)) = S (String.length x + String.length y)).
  rewrite IH. reflexivity.
Qed.

Lemma append_cons (c : Ascii.ascii) (x y : string) :
  String c x +:+ y = String c (x +:+ y).
Proof. reflexivity. Qed.

Lemma append_cancel_r (t x y : string) : x +:+ t = y +:+ t -> x = y.
Proof.
  revert y. induction x as [| c x IH]; intros [| d y] H.
  - reflexivity.
  - apply (f_equal String.length) in H.
    rewrite !append_length in H. cbn [String.length] in H. lia.
  - apply (f_equal String.length) in H.
    rewrite !append_length in H. cbn [String.length] in H. lia.
  - rewrite !append_cons in H. injection H as -> H. f_equal. apply IH, H.
Qed.

Lemma pressed_not_released (x y : string) :
  x +:+ " pressed" <> y +:+ " released".
Proof.
  revert y. induction x as [| c x IH]; intros [| d y] H.
  - discriminate H.
  - rewrite append_cons in H. injection H as _ H.
    apply (f_equal String.length) in H.
    rewrite append_length in H. cbn [String.length] in H. lia.
  - rewrite append_cons in H. injection H as _ H.
    destruct x as [| c' x]; [discriminate H |].
    apply (f_equal String.length) in H.
    rewrite append_length in H. cbn [String.length] in H. lia.
  - rewrite !append_cons in H. injection H as _ H. exact (IH y H).
Qed.

Lemma event_line_tells (repr : float -> string) (e e' : Event) :
  event_line repr e = event_line repr e' -> same_report e e'.
Proof.
  destruct e as [a v | b | b | t], e' as [a' v' | b' | b' | t'];
    cbn [event_line same_report]; intros H;
    try discriminate H; try exact I; injection H as H.
  - apply (inj pretty), (append_cancel_r " pressed" _ _ H).
  - exact (pressed_not_released (pretty b) (pretty b') H).
  - exact (pressed_not_released (pretty b') (pretty b) (eq_sym H)).
  - apply (inj pretty), (append_cancel_r " released" _ _ H).
Qed.

(** X9.  The printed line tells the events apart as far as the script reports
    them: when the loop body logs the same for two events, both are axis
    events, or both are presses of the same button, or both are releases
    of the same button, or both are of another type.  A press is never
    taken for a release, nor a button for another one, whatever text the
    float formatting gives. *)
Theorem printed_line_tells_the_event (repr : float -> string)
    (e e' : Event) (w : World) (s : State) :
  out (handle_event repr e w s).2 = out (handle_event repr e' w s).2 ->
  same_report e e'.
Proof.
  destruct (handle_event_logged repr e w s) as [r ->].
  destruct (handle_event_logged repr e' w s) as [r' ->].
  cbn [snd out]. intros H. apply app_inv_head in H.
  injection H as H. apply (event_line_tells repr e e' H).
Qed.

Lemma printed_line_tells_the_event_witness :
  same_report (JOYBUTTONDOWN 3) (JOYBUTTONDOWN (1 + 2)).
Proof.
  apply (printed_line_tells_the_event repr_half_only (JOYBUTTONDOWN 3)
           (JOYBUTTONDOWN (1 + 2)) no_device start).
  reflexivity.
Defined.

(** ** An interruption of the initialisation *)

(** X10.  An interruption raised after [pygame.init()] or after
    [pygame.joystick.init()] ends the script with [KeyboardInterrupt]
    before line 5 is reached: nothing catches it there, nothing is printed
    and [pygame.quit()] is not called. *)
Theorem interrupted_initialisation (repr : float -> string) (fuel : nat)
    (w : World) :
  (interrupt w = Some 0 ->
   pycontroller repr fuel w start
   = (Raised KeyboardInterrupt, mkState [PygameInit] 0))
  /\ (interrupt w = Some 1 ->
      pycontroller repr fuel w start
      = (Raised KeyboardInterrupt,
         mkState [PygameInit; JoystickModuleInit] 0)).
Proof.
  unfold pycontroller, bind, pygame.init, pygame.joystick.init. split.
  - intros H. rewrite call_hit by exact H. reflexivity.
  - intros H. rewrite call_quiet by (rewrite H; discriminate).
    rewrite call_hit by exact H. reflexivity.
Qed.

Lemma interrupted_initialisation_witness :
  pycontroller repr_half_only 2 (one_device (Some 0)) start
  = (Raised KeyboardInterrupt, mkState [PygameInit] 0)
  /\ pycontroller repr_half_only 2 (one_device (Some 1)) start
     = (Raised KeyboardInterrupt, mkState [PygameInit; JoystickModuleInit] 0).
Proof.
  split.
  - apply (interrupted_initialisation repr_half_only 2 (one_device (Some 0))).
    reflexivity.
  - apply (interrupted_initialisation repr_half_only 2 (one_device (Some 1))).
    reflexivity.
Defined.

(** ** Fuel *)





(** ** Ending normally *)

(** X12.  With a device connected there is one way only for the device
    check to end normally: the user's interruption, raised once the
    startup is over, that is inside the loop.  The log then ends with
    [Exiting.] and [pygame.quit()].  Without an interruption, or with fuel
    that does not reach it, the answer is [Running]. *)
Theorem normal_end_needs_interruption (repr : float -> string) (fuel : nat)
    (w : World) (s s' : State) (name : string) (others : list string) :
  devices w = name :: others ->
  device_check repr fuel w s = (Done tt, s') ->
  exists k log,
    interrupt w = Some k
    /\ length (out s) + 5 <= k
    /\ out s' = out s ++ (GetCount :: startup_calls name) ++ log
                  ++ [Print "Exiting."; PygameQuit].
Proof.
  intros Hd Hrun.
  assert (Hquiet : uninterrupted w (length (out s)) (length (out s) + 5) ->
            uninterrupted w (length (out s) + 5)
              (length (out s) + 5
               + length (loop_trace repr w (polls s) fuel)) -> False).
  { intros H1 H2.
    rewrite (device_check_startup repr w fuel s name others Hd H1) in Hrun.
    rewrite monitor_quiet in Hrun; [discriminate Hrun |].
    cbn [out polls]. rewrite length_app. exact H2. }
  destruct (interrupt w) as [k |] eqn:Hk;
    [| destruct Hquiet; intros k' Hk'; rewrite Hk in Hk'; discriminate Hk'].
  destruct (decide (length (out s) <= k < length (out s) + 5)) as [He | Hl].
  { rewrite (device_check_early_hit repr w fuel k s name others Hd Hk He)
      in Hrun. discriminate Hrun. }
  destruct (decide (length (out s) + 5 <= k
            < length (out s) + 5 + length (loop_trace repr w (polls s) fuel)))
    as [Hin | Hout].
  - rewrite (device_check_startup repr w fuel s name others Hd) in Hrun
      by (intros k' Hk'; rewrite Hk in Hk'; injection Hk' as <-; lia).
    set (s1 := mkState (out s ++ GetCount :: startup_calls name) (polls s))
      in Hrun.
    destruct (monitor_hit repr w k fuel s1 Hk) as [p Hp].
    { unfold s1. cbn [out polls]. rewrite length_app. exact Hin. }
    rewrite Hp in Hrun. injection Hrun as <-. cbn [out].
    exists k, (take (S k - length (out s1))
                 (loop_trace repr w (polls s1) fuel)).
    split; [reflexivity | split; [lia |]].
    unfold s1. cbn [out]. rewrite <- !app_assoc. reflexivity.
  - destruct Hquiet; intros k' Hk'; rewrite Hk in Hk';
      injection Hk' as <-; lia.
Qed.

Lemma normal_end_needs_interruption_witness :
  exists k log,
    Some 6 = Some k
    /\ 5 <= k
    /\ [GetCount; NewJoystick 0; JoystickInit; GetName;
        Print "Connected controller: X"; EventGet;
        Print "Axis 1 moved to 0.5"; Print "Exiting."; PygameQuit]
       = (GetCount :: startup_calls "X") ++ log
           ++ [Print "Exiting."; PygameQuit].
Proof.
  apply (normal_end_needs_interruption repr_half_only 2 (one_device (Some 6))
           start
           (mkState [GetCount; NewJoystick 0; JoystickInit; GetName;
                     Print "Connected controller: X"; EventGet;
                     Print "Axis 1 moved to 0.5"; Print "Exiting.";
                     PygameQuit] 1)
           "X" []); reflexivity.
Defined.
